(** * useAnimatedSnapPoints: the snap point normalizer of the bottom sheet

    A shallow embedding of [src/hooks/useAnimatedSnapPoints.ts] and the
    properties of its two derived values:

    - [normalizedSnapPoints], the worklet that turns the provided snap
      points into pixel positions and, with dynamic sizing, adds the snap
      point derived from the measured content and records its index in the
      shared value [dynamicSnapPointIndex];
    - [hasDynamicSnapPoint], the flag telling whether a snap point depends
      on layout.

    Numbers are modelled as integers ([Z]): the worklet only subtracts,
    takes a minimum, compares and sorts, and [NaN] and the rounding of IEEE
    doubles are outside the model.  The optional [onLog] calls only build a
    message for an external logger; they return nothing to the worklet and
    are left out. *)

From Stdlib Require Import ZArith List String Ascii Bool Lia.
From Stdlib Require Import Sorting.Sorted Sorting.Permutation.
Import ListNotations.
Open Scope Z_scope.

(** ** Data model *)

(** An entry of the [snapPoints] prop, [number | string]. *)
Inductive SnapPoint : Type :=
| Px (n : Z)
| Str (s : string).

(** The [snapPoints] prop: a plain array, a shared value holding an array
    (the object with a [value] field), or nothing ([undefined] / [null]). *)
Inductive SnapPointsProp : Type :=
| Absent
| Plain (l : list SnapPoint)
| Shared (value : list SnapPoint).

(** The arguments of the hook, the shared values read at their current
    [.value]. [enableDynamicSizing] is only tested for truthiness, so
    [undefined] is [false]; [maxDynamicContentSize] is [None] when
    [undefined]. *)
Record Inputs : Type := mkInputs {
  snapPoints : SnapPointsProp;
  containerHeight : Z;
  contentHeight : Z;
  handleHeight : Z;
  footerHeight : Z;
  enableDynamicSizing : bool;
  maxDynamicContentSize : option Z
}.

(** ** Array operations used by the worklet *)

Module JsArray.

(** [Array.prototype.includes]. *)
Definition includes (l : list Z) (x : Z) : bool := existsb (Z.eqb x) l.

(** [Array.prototype.push]. *)
Definition push (l : list Z) (x : Z) : list Z := l ++ [x].

(** [Array.prototype.indexOf]: the first position holding [x], scanning
    from position [k], or [-1]. *)
Fixpoint indexOf_from (k : Z) (l : list Z) (x : Z) : Z :=
  match l with
  | [] => -1
  | y :: t => if y =? x then k else indexOf_from (k + 1) t x
  end.

Definition indexOf (l : list Z) (x : Z) : Z := indexOf_from 0 l x.

(** Element access [l[i]]; [None] stands for [undefined]. *)
Definition at_ (l : list Z) (i : Z) : option Z :=
  if i <? 0 then None else nth_error l (Z.to_nat i).

(** The comparator of line 95, [(a, b) => b - a]. *)
Definition compareFn (a b : Z) : Z := b - a.

(** [Array.prototype.sort(compareFn)]. The engine's algorithm is not
    fixed, only that it is stable; a stable insertion sort driven by the
    comparator stands for it ([sort_unique] below shows that, on numbers,
    every algorithm returns the same array). *)
Fixpoint insert (x : Z) (l : list Z) : list Z :=
  match l with
  | [] => [x]
  | y :: t => if compareFn x y <=? 0 then x :: y :: t else y :: insert x t
  end.

Definition sort (l : list Z) : list Z := fold_right insert [] l.

(** Descending order, as a proposition and as a test. *)
Definition descending (l : list Z) : Prop := StronglySorted Z.ge l.


End JsArray.
Import JsArray.

(** ** The hook *)

(** Extraction of the array from the prop (lines 48-52 and 123-127). *)
Definition _snapPoints (i : Inputs) : list SnapPoint :=
  match snapPoints i with
  | Absent => []
  | Plain l => l
  | Shared value => value
  end.

(** Lines 79-86. *)
Definition dynamicSnapPoint (i : Inputs) : Z :=
  containerHeight i -
  Z.min (contentHeight i + handleHeight i + footerHeight i)
        (match maxDynamicContentSize i with
         | Some m => m
         | None => containerHeight i
         end).

(** The members the hook imports from other modules of the package: the
    constants of [components/bottomSheet/constants] and the helper
    [normalizeSnapPoint] of [utilities]. Their code is not part of the hook;
    the embedding is parameterised by them. *)
Class Imports : Type := {
  INITIAL_CONTAINER_HEIGHT : Z;
  INITIAL_HANDLE_HEIGHT : Z;
  INITIAL_SNAP_POINT : Z;
  normalizeSnapPoint : SnapPoint -> Z -> Z
}.

Section Hook.

Context {imports : Imports}.

(** Lines 56-58: the provided snap points, normalized in order. *)
Definition _normalizedSnapPoints (i : Inputs) : list Z :=
  map (fun snapPoint => normalizeSnapPoint snapPoint (containerHeight i))
      (_snapPoints i).

(** The body of the derived value (lines 38-103), the shared value
    [dynamicSnapPointIndex] threaded through: the result is the returned
    array and the value of the shared value afterwards. *)
Definition normalizedSnapPoints (i : Inputs) (dynamicSnapPointIndex : Z)
  : list Z * Z :=
  let isContainerLayoutReady :=
    negb (containerHeight i =? INITIAL_CONTAINER_HEIGHT) in
  if negb isContainerLayoutReady then
    ([INITIAL_SNAP_POINT], dynamicSnapPointIndex)
  else
    let l0 := _normalizedSnapPoints i in
    if negb (enableDynamicSizing i) then
      (l0, dynamicSnapPointIndex)
    else if handleHeight i =? INITIAL_HANDLE_HEIGHT then
      ([INITIAL_SNAP_POINT], dynamicSnapPointIndex)
    else if contentHeight i =? INITIAL_CONTAINER_HEIGHT then
      ([INITIAL_SNAP_POINT], dynamicSnapPointIndex)
    else
      let d := dynamicSnapPoint i in
      let l1 := if negb (includes l0 d) then push l0 d else l0 in
      let l2 := sort l1 in
      (l2, indexOf l2 d).

(** The layout conditions of the early exits. Line 73 compares the
    content height with [INITIAL_CONTAINER_HEIGHT]. *)
Definition containerReady (i : Inputs) : Prop :=
  containerHeight i <> INITIAL_CONTAINER_HEIGHT.

Definition handleReady (i : Inputs) : Prop :=
  handleHeight i <> INITIAL_HANDLE_HEIGHT.

Definition contentReady (i : Inputs) : Prop :=
  contentHeight i <> INITIAL_CONTAINER_HEIGHT.

(** The state in which the worklet reaches line 79. *)
Definition dynamicReady (i : Inputs) : Prop :=
  enableDynamicSizing i = true /\
  containerReady i /\ handleReady i /\ contentReady i.

(** One of the guards of an early [return [INITIAL_SNAP_POINT]] holds. *)
Definition layoutNotReady (i : Inputs) : Prop :=
  containerHeight i = INITIAL_CONTAINER_HEIGHT \/
  (enableDynamicSizing i = true /\
   (handleHeight i = INITIAL_HANDLE_HEIGHT \/
    contentHeight i = INITIAL_CONTAINER_HEIGHT)).

(** *** The hook over time

    The shared value is created once with [-1] (line 37) and the derived
    value is recomputed whenever an input changes. A state records the
    inputs of the latest recomputation, the array it returned and the
    shared value. *)
Record HookState : Type := mkHookState {
  st_inputs : Inputs;
  st_normalized : list Z;
  st_index : Z
}.

Definition recompute (i : Inputs) (dynamicSnapPointIndex : Z) : HookState :=
  let r := normalizedSnapPoints i dynamicSnapPointIndex in
  mkHookState i (fst r) (snd r).

Inductive reachable : HookState -> Prop :=
| reachable_mount (i : Inputs) :
    reachable (recompute i (-1))
| reachable_update (s : HookState) (i : Inputs) :
    reachable s -> reachable (recompute i (st_index s)).

End Hook.

(** JavaScript truthiness of an entry: [0] and the empty string are falsy. *)
Definition truthy (snapPoint : SnapPoint) : bool :=
  match snapPoint with
  | Px n => negb (n =? 0)
  | Str s => negb (String.eqb s EmptyString)
  end.

(** [typeof snapPoint === 'string']. *)
Definition isString (snapPoint : SnapPoint) : bool :=
  match snapPoint with
  | Px _ => false
  | Str _ => true
  end.

(** The body of the second derived value (lines 114-140). [find] returns
    the first string entry, or [undefined], and the [if] tests the
    truthiness of what it returns. *)
Definition hasDynamicSnapPoint (i : Inputs) : bool :=
  if enableDynamicSizing i then true
  else
    let l := _snapPoints i in
    if negb (Z.of_nat (List.length l) =? 0) &&
       match find isString l with
       | Some snapPoint => truthy snapPoint
       | None => false
       end
    then true
    else false.


(** ** An instance of the imports

    One choice of the imported constants and helper, used only to run the
    worklet on concrete inputs; every general statement below holds for
    all imports. *)
Module Sample.

Definition isDigit (c : ascii) : bool :=
  let n := Z.of_nat (nat_of_ascii c) in (48 <=? n) && (n <=? 57).

(** The number written before the percent sign, digits only. *)
Fixpoint parseDigits (acc : Z) (s : string) : Z :=
  match s with
  | EmptyString => acc
  | String c t =>
      if isDigit c
      then parseDigits (10 * acc + (Z.of_nat (nat_of_ascii c) - 48)) t
      else acc
  end.

(** Modelled from the spec: [normalizeSnapPoint] of [utilities] is not
    among the sources of the hook. The specification describes it as the
    conversion of an entry to pixels relative to the container height: a
    percentage string is that percentage of the height, a literal pixel
    size is kept. Strings that are not a number followed by a percent sign
    are the helper's business and read as the digits they start with. *)
Definition normalize (snapPoint : SnapPoint) (height : Z) : Z :=
  match snapPoint with
  | Px n => n
  | Str s => parseDigits 0 s * height / 100
  end.

(** Modelled from the spec: the constants module is not among the sources
    of the hook. The specification asks for a value that container, handle
    and content heights hold before they are measured and for a sentinel
    snap point; a negative number, which no measured height takes, is
    chosen for each. *)
Definition imports : Imports := {|
  INITIAL_CONTAINER_HEIGHT := -999;
  INITIAL_HANDLE_HEIGHT := -999;
  INITIAL_SNAP_POINT := -999;
  normalizeSnapPoint := normalize
|}.

(** The worklet at the sample imports. *)
Definition run (i : Inputs) (dynamicSnapPointIndex : Z) : list Z * Z :=
  @normalizedSnapPoints imports i dynamicSnapPointIndex.

End Sample.

(** ** The hook as a whole *)

Section HookRuns.

Context {imports : Imports}.

(** The three values the hook returns (line 143), read once the derived
    values have run on the inputs [i] with the shared index at
    [dynamicSnapPointIndex]. *)
Definition useAnimatedSnapPoints (i : Inputs) (dynamicSnapPointIndex : Z)
  : list Z * Z * bool :=
  let r := normalizedSnapPoints i dynamicSnapPointIndex in
  (fst r, snd r, hasDynamicSnapPoint i).

(** None of the guards of lines 42, 61, 67 and 73 returns early. *)
Definition dynamicReadyb (i : Inputs) : bool :=
  negb (containerHeight i =? INITIAL_CONTAINER_HEIGHT) &&
  enableDynamicSizing i &&
  negb (handleHeight i =? INITIAL_HANDLE_HEIGHT) &&
  negb (contentHeight i =? INITIAL_CONTAINER_HEIGHT).

(** The state after the hook mounted with the inputs [i] and was then
    recomputed for each of [updates], in order. *)
Definition recompute_all (i : Inputs) (updates : list Inputs) : HookState :=
  fold_left (fun s j => recompute j (st_index s)) updates (recompute i (-1)).

End HookRuns.

(** Inputs of a sheet with three provided snap points, dynamic sizing on
    and every size measured, used to run the hook. *)
Definition exampleInputs : Inputs :=
  {| snapPoints := Plain [Px 100; Str "50%"; Px 450];
     containerHeight := 600; contentHeight := 250;
     handleHeight := 24; footerHeight := 26;
     enableDynamicSizing := true;
     maxDynamicContentSize := None |}.

(** * Properties *)

(** ** The array operations *)

Lemma includes_In (l : list Z) (x : Z) : includes l x = true <-> In x l.
Proof.
  unfold includes. rewrite existsb_exists. split.
  - intros [y [Hy Heq]]. apply Z.eqb_eq in Heq. now subst.
  - intros Hx. exists x. split; [assumption | apply Z.eqb_refl].
Qed.

Lemma includes_false (l : list Z) (x : Z) : includes l x = false <-> ~ In x l.
Proof.
  rewrite <- includes_In. destruct (includes l x); split; congruence.
Qed.

Lemma indexOf_from_absent (l : list Z) (x k : Z) :
  ~ In x l -> indexOf_from k l x = -1.
Proof.
  revert k. induction l as [|y t IH]; intros k Hx; simpl; [reflexivity|].
  destruct (Z.eqb_spec y x) as [->|Hne].
  - exfalso. apply Hx. now left.
  - apply IH. intros Hin. apply Hx. now right.
Qed.

(** [indexOf] finds the first position of an element of the array. *)
Lemma indexOf_from_found (l : list Z) (x k : Z) :
  In x l ->
  let r := indexOf_from k l x in
  k <= r < k + Z.of_nat (List.length l) /\
  nth_error l (Z.to_nat (r - k)) = Some x /\
  (forall j, (j < Z.to_nat (r - k))%nat -> nth_error l j <> Some x).
Proof.
  revert k. induction l as [|y t IH]; intros k Hx; [destruct Hx|].
  cbn [indexOf_from]. destruct (Z.eqb_spec y x) as [->|Hne].
  - cbn zeta. rewrite Z.sub_diag. cbn [List.length]. repeat split; lia.
  - destruct Hx as [Heq|Hx]; [contradiction|].
    specialize (IH (k + 1) Hx). cbn zeta in *.
    destruct IH as [Hr [Hn Hf]]. cbn [List.length].
    replace (Z.to_nat (indexOf_from (k + 1) t x - k))
      with (S (Z.to_nat (indexOf_from (k + 1) t x - (k + 1)))) by lia.
    repeat split; try lia; [exact Hn|].
    intros [|j] Hj; simpl.
    + intros Heq. apply Hne. congruence.
    + apply Hf. lia.
Qed.

Lemma indexOf_found (l : list Z) (x : Z) :
  In x l ->
  0 <= indexOf l x < Z.of_nat (List.length l) /\
  at_ l (indexOf l x) = Some x /\
  (forall j, 0 <= j < indexOf l x -> at_ l j <> Some x).
Proof.
  intros Hx. destruct (indexOf_from_found l x 0 Hx) as [Hr [Hn Hf]].
  fold (indexOf l x) in *. rewrite Z.sub_0_r in *.
  split; [lia|]. unfold at_. split.
  - destruct (Z.ltb_spec (indexOf l x) 0); [lia | exact Hn].
  - intros j Hj. destruct (Z.ltb_spec j 0); [lia|]. apply Hf. lia.
Qed.

Lemma insert_perm (x : Z) (l : list Z) : Permutation (x :: l) (insert x l).
Proof.
  induction l as [|y t IH]; simpl; [reflexivity|].
  destruct (compareFn x y <=? 0); [reflexivity|].
  rewrite perm_swap. now apply perm_skip.
Qed.

Lemma sort_perm (l : list Z) : Permutation l (sort l).
Proof.
  induction l as [|x t IH]; simpl; [constructor|].
  rewrite <- insert_perm. now apply perm_skip.
Qed.

Lemma insert_descending (x : Z) (l : list Z) :
  descending l -> descending (insert x l).
Proof.
  unfold descending. induction l as [|y t IH]; intros Hl; simpl;
    unfold compareFn.
  - repeat constructor.
  - apply StronglySorted_inv in Hl. destruct Hl as [Ht Hy].
    destruct (Z.leb_spec (y - x) 0) as [Hle|Hgt].
    + constructor; [now constructor|].
      constructor; [lia|].
      rewrite Forall_forall in *. intros z Hz. specialize (Hy z Hz). lia.
    + constructor; [now apply IH|].
      rewrite Forall_forall in *. intros z Hz.
      apply (Permutation_in _ (Permutation_sym (insert_perm x t))) in Hz.
      destruct Hz as [<-|Hz]; [lia | now apply Hy].
Qed.

Lemma sort_descending (l : list Z) : descending (sort l).
Proof.
  induction l as [|x t IH]; simpl; [constructor | now apply insert_descending].
Qed.

(** Two descending arrays with the same elements are the same array. *)
Lemma descending_perm_eq (l1 l2 : list Z) :
  descending l1 -> descending l2 -> Permutation l1 l2 -> l1 = l2.
Proof.
  unfold descending. revert l2. induction l1 as [|a t1 IH]; intros l2 H1 H2 HP.
  - apply Permutation_nil in HP. now subst.
  - destruct l2 as [|b t2].
    + apply Permutation_sym, Permutation_nil in HP. discriminate.
    + apply StronglySorted_inv in H1. destruct H1 as [Ht1 Ha].
      apply StronglySorted_inv in H2. destruct H2 as [Ht2 Hb].
      rewrite Forall_forall in Ha, Hb.
      assert (a = b) as <-.
      { assert (In a (b :: t2)) as Hab
          by (apply (Permutation_in _ HP); now left).
        assert (In b (a :: t1)) as Hba
          by (apply (Permutation_in _ (Permutation_sym HP)); now left).
        destruct Hab as [Heq|Hab]; [now subst|].
        destruct Hba as [Heq|Hba]; [now subst|].
        specialize (Ha _ Hba). specialize (Hb _ Hab). lia. }
      f_equal. apply IH; try assumption.
      now apply Permutation_cons_inv in HP.
Qed.

(** Whatever algorithm the engine runs, a descending rearrangement of the
    array is the one [sort] returns. *)
Lemma sort_unique (l l' : list Z) :
  Permutation l l' -> descending l' -> l' = sort l.
Proof.
  intros HP Hd. apply descending_perm_eq; [assumption | apply sort_descending |].
  rewrite <- HP. apply sort_perm.
Qed.


Lemma sort_count (l : list Z) (x : Z) :
  count_occ Z.eq_dec (sort l) x = count_occ Z.eq_dec l x.
Proof.
  symmetry. revert x. apply (Permutation_count_occ Z.eq_dec). apply sort_perm.
Qed.

Lemma sort_In (l : list Z) (x : Z) : In x (sort l) <-> In x l.
Proof.
  split; apply Permutation_in; [apply Permutation_sym |]; apply sort_perm.
Qed.

Lemma sort_length (l : list Z) : List.length (sort l) = List.length l.
Proof. symmetry. apply Permutation_length, sort_perm. Qed.

(** ** The branches of the worklet *)

Section Branches.

Context {imports : Imports}.

Lemma run_container_not_ready (i : Inputs) (idx : Z) :
  containerHeight i = INITIAL_CONTAINER_HEIGHT ->
  normalizedSnapPoints i idx = ([INITIAL_SNAP_POINT], idx).
Proof.
  intros Hc. unfold normalizedSnapPoints.
  apply Z.eqb_eq in Hc. now rewrite Hc.
Qed.

Lemma run_no_dynamic (i : Inputs) (idx : Z) :
  containerReady i -> enableDynamicSizing i = false ->
  normalizedSnapPoints i idx = (_normalizedSnapPoints i, idx).
Proof.
  intros Hc He. unfold normalizedSnapPoints.
  apply Z.eqb_neq in Hc. now rewrite Hc, He.
Qed.

Lemma run_handle_not_ready (i : Inputs) (idx : Z) :
  containerReady i -> enableDynamicSizing i = true ->
  handleHeight i = INITIAL_HANDLE_HEIGHT ->
  normalizedSnapPoints i idx = ([INITIAL_SNAP_POINT], idx).
Proof.
  intros Hc He Hh. unfold normalizedSnapPoints.
  apply Z.eqb_neq in Hc. apply Z.eqb_eq in Hh. now rewrite Hc, He, Hh.
Qed.

Lemma run_content_not_ready (i : Inputs) (idx : Z) :
  containerReady i -> enableDynamicSizing i = true ->
  contentHeight i = INITIAL_CONTAINER_HEIGHT ->
  normalizedSnapPoints i idx = ([INITIAL_SNAP_POINT], idx).
Proof.
  intros Hc He Hh. unfold normalizedSnapPoints.
  apply Z.eqb_neq in Hc. apply Z.eqb_eq in Hh. rewrite Hc, He, Hh. simpl.
  now destruct (handleHeight i =? INITIAL_HANDLE_HEIGHT).
Qed.

Lemma run_dynamic (i : Inputs) (idx : Z) :
  dynamicReady i ->
  let d := dynamicSnapPoint i in
  let l0 := _normalizedSnapPoints i in
  let l2 := sort (if includes l0 d then l0 else push l0 d) in
  normalizedSnapPoints i idx = (l2, indexOf l2 d).
Proof.
  intros (He & Hc & Hh & Hn). unfold normalizedSnapPoints.
  apply Z.eqb_neq in Hc, Hh, Hn. rewrite Hc, He, Hh, Hn. simpl.
  now destruct (includes (_normalizedSnapPoints i) (dynamicSnapPoint i)).
Qed.

(** Every state is in exactly one of the two situations: an early exit is
    taken, or the worklet reaches the dynamic snap point. *)
Lemma early_exit_or_dynamic (i : Inputs) :
  (containerHeight i = INITIAL_CONTAINER_HEIGHT \/
   enableDynamicSizing i = false \/
   handleHeight i = INITIAL_HANDLE_HEIGHT \/
   contentHeight i = INITIAL_CONTAINER_HEIGHT) \/
  dynamicReady i.
Proof.
  unfold dynamicReady, containerReady, handleReady, contentReady.
  destruct (Z.eq_dec (containerHeight i) INITIAL_CONTAINER_HEIGHT); [tauto|].
  destruct (enableDynamicSizing i); [|tauto].
  destruct (Z.eq_dec (handleHeight i) INITIAL_HANDLE_HEIGHT); [tauto|].
  destruct (Z.eq_dec (contentHeight i) INITIAL_CONTAINER_HEIGHT); tauto.
Qed.

(** The dynamic snap point is in the array the full branch returns, as
    often as in the normalized list, and once when it was not there. *)
Lemma dynamic_point_count (l0 : list Z) (d : Z) :
  count_occ Z.eq_dec (sort (if includes l0 d then l0 else push l0 d)) d
  = Nat.max 1 (count_occ Z.eq_dec l0 d).
Proof.
  rewrite sort_count. destruct (includes l0 d) eqn:Hinc.
  - apply includes_In in Hinc.
    apply (count_occ_In Z.eq_dec) in Hinc. lia.
  - apply includes_false in Hinc.
    apply (count_occ_not_In Z.eq_dec) in Hinc.
    unfold push. rewrite count_occ_app, Hinc. simpl.
    destruct (Z.eq_dec d d); [reflexivity | contradiction].
Qed.

Lemma dynamic_point_In (l0 : list Z) (d : Z) :
  In d (sort (if includes l0 d then l0 else push l0 d)).
Proof.
  apply (count_occ_In Z.eq_dec). rewrite dynamic_point_count. lia.
Qed.

End Branches.

(** ** The normalized snap points *)

Section Normalizer.

Context {imports : Imports}.

(** C1 (as amended): with dynamic sizing enabled and container, handle and
    content measured, the returned array is sorted in descending order and
    contains the dynamic snap point; it contains it once when the
    normalized provided list holds it at most once, and otherwise as often
    as that list does. *)
Theorem dynamic_point_included_and_sorted (i : Inputs) (idx : Z) :
  dynamicReady i ->
  let result := fst (normalizedSnapPoints i idx) in
  let d := dynamicSnapPoint i in
  let provided := count_occ Z.eq_dec (_normalizedSnapPoints i) d in
  In d result /\
  count_occ Z.eq_dec result d = Nat.max 1 provided /\
  ((provided <= 1)%nat -> count_occ Z.eq_dec result d = 1%nat) /\
  descending result.
Proof.
  intros Hr. cbn zeta. rewrite (run_dynamic i idx Hr). cbn [fst].
  pose proof (dynamic_point_count (_normalizedSnapPoints i)
                (dynamicSnapPoint i)) as Hcount.
  repeat split.
  - apply dynamic_point_In.
  - exact Hcount.
  - intros Hle. rewrite Hcount. lia.
  - apply sort_descending.
Qed.

(** The formula of the dynamic snap point in the words of the
    specification, [cap ?? containerHeight] written out. *)
Lemma dynamicSnapPoint_formula (i : Inputs) :
  dynamicSnapPoint i =
  containerHeight i -
  Z.min (contentHeight i + handleHeight i + footerHeight i)
        (match maxDynamicContentSize i with
         | Some cap => cap
         | None => containerHeight i
         end).
Proof. reflexivity. Qed.

(** C2: with dynamic sizing enabled and all measurements ready, the snap
    point the worklet computes, returns in its array and records the
    position of, is [containerHeight - min(contentHeight + handleHeight +
    footerHeight, maxDynamicContentSize ?? containerHeight)]. *)
Theorem dynamic_point_value (i : Inputs) (idx : Z) :
  dynamicReady i ->
  let r := normalizedSnapPoints i idx in
  at_ (fst r) (snd r) =
  Some (containerHeight i -
        Z.min (contentHeight i + handleHeight i + footerHeight i)
              (match maxDynamicContentSize i with
               | Some cap => cap
               | None => containerHeight i
               end)).
Proof.
  intros Hr. cbn zeta. rewrite (run_dynamic i idx Hr). cbn [fst snd].
  rewrite <- dynamicSnapPoint_formula.
  apply indexOf_found, dynamic_point_In.
Qed.

(** When the full branch returns a one-element array. *)
Lemma dynamic_singleton (l0 : list Z) (d s : Z) :
  sort (if includes l0 d then l0 else push l0 d) = [s] <->
  d = s /\ (l0 = [] \/ l0 = [s]).
Proof.
  split.
  - intros Hs.
    assert (d = s) as ->.
    { pose proof (dynamic_point_In l0 d) as Hin. rewrite Hs in Hin.
      destruct Hin as [Heq|[]]. now symmetry. }
    split; [reflexivity|].
    pose proof (sort_perm (if includes l0 s then l0 else push l0 s)) as HP.
    rewrite Hs in HP. destruct (includes l0 s).
    + right. now apply Permutation_sym, Permutation_length_1_inv in HP.
    + left. apply Permutation_length in HP. unfold push in HP.
      rewrite length_app in HP. simpl in HP.
      destruct l0; [reflexivity | simpl in HP; lia].
  - intros [-> [->| ->]]; simpl.
    + reflexivity.
    + now rewrite Z.eqb_refl.
Qed.

(** C3 (as amended): whenever an early-exit guard on layout holds
    (container height at its initial value, or dynamic sizing enabled with
    handle or content height at its initial value) the result is the
    one-element sentinel array. The converse needs a proviso: in a state
    with ready layout the same array is returned exactly when the computed
    list happens to be it, that is when the normalized provided list is
    the one-element sentinel array (dynamic sizing off), or the dynamic
    snap point equals the sentinel and the normalized provided list is
    empty or the one-element sentinel array (dynamic sizing on). *)
Theorem sentinel_characterisation (i : Inputs) (idx : Z) :
  let result := fst (normalizedSnapPoints i idx) in
  (layoutNotReady i -> result = [INITIAL_SNAP_POINT]) /\
  (result = [INITIAL_SNAP_POINT] <->
   layoutNotReady i \/
   (containerReady i /\ enableDynamicSizing i = false /\
    _normalizedSnapPoints i = [INITIAL_SNAP_POINT]) \/
   (dynamicReady i /\ dynamicSnapPoint i = INITIAL_SNAP_POINT /\
    (_normalizedSnapPoints i = [] \/
     _normalizedSnapPoints i = [INITIAL_SNAP_POINT]))).
Proof.
  cbn zeta.
  assert (layoutNotReady i ->
          fst (normalizedSnapPoints i idx) = [INITIAL_SNAP_POINT]) as Hfwd.
  { intros [Hc|[He [Hh|Hn]]].
    - now rewrite run_container_not_ready.
    - destruct (Z.eq_dec (containerHeight i) INITIAL_CONTAINER_HEIGHT) as [Hc|Hc].
      + now rewrite run_container_not_ready.
      + now rewrite run_handle_not_ready.
    - destruct (Z.eq_dec (containerHeight i) INITIAL_CONTAINER_HEIGHT) as [Hc|Hc].
      + now rewrite run_container_not_ready.
      + now rewrite run_content_not_ready. }
  split; [exact Hfwd|]. split.
  - intros Hres.
    destruct (Z.eq_dec (containerHeight i) INITIAL_CONTAINER_HEIGHT) as [Hc|Hc];
      [left; now left|].
    destruct (enableDynamicSizing i) eqn:He.
    + destruct (Z.eq_dec (handleHeight i) INITIAL_HANDLE_HEIGHT) as [Hh|Hh];
        [left; right; tauto|].
      destruct (Z.eq_dec (contentHeight i) INITIAL_CONTAINER_HEIGHT) as [Hn|Hn];
        [left; right; tauto|].
      assert (dynamicReady i) as Hr by (repeat split; assumption).
      right; right. split; [exact Hr|].
      rewrite (run_dynamic i idx Hr) in Hres. cbn [fst] in Hres.
      now apply dynamic_singleton in Hres.
    + right; left. rewrite run_no_dynamic in Hres by assumption.
      repeat split; assumption.
  - intros [Hn|[(Hc & He & Hl)|(Hr & Hd & Hl)]].
    + now apply Hfwd.
    + now rewrite run_no_dynamic.
    + rewrite (run_dynamic i idx Hr). cbn [fst].
      apply dynamic_singleton. now split.
Qed.

(** C4: with the container measured and dynamic sizing disabled the result
    is the provided list normalized entry by entry against the container
    height: same length, same order, nothing added, removed or sorted. *)
Theorem no_dynamic_sizing_keeps_order (i : Inputs) (idx : Z) :
  containerReady i -> enableDynamicSizing i = false ->
  let result := fst (normalizedSnapPoints i idx) in
  let norm := fun snapPoint => normalizeSnapPoint snapPoint (containerHeight i) in
  result = map norm (_snapPoints i) /\
  List.length result = List.length (_snapPoints i) /\
  (forall k, nth_error result k = option_map norm (nth_error (_snapPoints i) k)).
Proof.
  intros Hc He. cbn zeta. rewrite run_no_dynamic by assumption. cbn [fst].
  unfold _normalizedSnapPoints. repeat split.
  - apply length_map.
  - intros k. apply nth_error_map.
Qed.


End Normalizer.

(** ** The dynamic snap point index *)

Section Index.

Context {imports : Imports}.

(** An early exit returns without touching the shared value. *)
Lemma early_exit_keeps_index (i : Inputs) (idx : Z) :
  containerHeight i = INITIAL_CONTAINER_HEIGHT \/
  enableDynamicSizing i = false \/
  handleHeight i = INITIAL_HANDLE_HEIGHT \/
  contentHeight i = INITIAL_CONTAINER_HEIGHT ->
  snd (normalizedSnapPoints i idx) = idx.
Proof.
  intros Hexit. unfold normalizedSnapPoints.
  destruct (containerHeight i =? INITIAL_CONTAINER_HEIGHT) eqn:Hc;
    [reflexivity|]. cbn [negb].
  destruct (enableDynamicSizing i) eqn:He; [|reflexivity]. cbn [negb].
  destruct (handleHeight i =? INITIAL_HANDLE_HEIGHT) eqn:Hh; [reflexivity|].
  destruct (contentHeight i =? INITIAL_CONTAINER_HEIGHT) eqn:Hn; [reflexivity|].
  apply Z.eqb_neq in Hc, Hh, Hn.
  destruct Hexit as [?|[?|[?|?]]]; congruence.
Qed.

(** The full branch records the first position of the dynamic snap point
    in the array it returns. *)
Lemma dynamic_index_valid (i : Inputs) (idx : Z) :
  dynamicReady i ->
  let r := normalizedSnapPoints i idx in
  0 <= snd r < Z.of_nat (List.length (fst r)) /\
  at_ (fst r) (snd r) = Some (dynamicSnapPoint i) /\
  (forall j, 0 <= j < snd r -> at_ (fst r) j <> Some (dynamicSnapPoint i)).
Proof.
  intros Hr. cbn zeta. rewrite (run_dynamic i idx Hr). cbn [fst snd].
  apply indexOf_found, dynamic_point_In.
Qed.

(** C8: on each early-exit branch (container not measured, dynamic sizing
    disabled, handle not measured, content not measured) the shared index
    keeps the value it had; the full dynamic-sizing branch is the only one
    that assigns it, with the position of the dynamic snap point in the
    array it returns, and every state falls in one of the two cases. *)
Theorem index_written_only_by_dynamic_branch (i : Inputs) (idx : Z) :
  (containerHeight i = INITIAL_CONTAINER_HEIGHT \/
   enableDynamicSizing i = false \/
   handleHeight i = INITIAL_HANDLE_HEIGHT \/
   contentHeight i = INITIAL_CONTAINER_HEIGHT ->
   snd (normalizedSnapPoints i idx) = idx) /\
  (dynamicReady i ->
   snd (normalizedSnapPoints i idx) =
   indexOf (fst (normalizedSnapPoints i idx)) (dynamicSnapPoint i)) /\
  ((containerHeight i = INITIAL_CONTAINER_HEIGHT \/
    enableDynamicSizing i = false \/
    handleHeight i = INITIAL_HANDLE_HEIGHT \/
    contentHeight i = INITIAL_CONTAINER_HEIGHT) \/
   dynamicReady i).
Proof.
  repeat split.
  - apply early_exit_keeps_index.
  - intros Hr. now rewrite (run_dynamic i idx Hr).
  - apply early_exit_or_dynamic.
Qed.

(** C9: with dynamic sizing enabled, all measurements ready, no
    [maxDynamicContentSize] and nonnegative content, handle and footer
    heights, the capped content size is at most the container height and
    the dynamic snap point, as computed and as returned at the recorded
    index, is nonnegative. *)
Theorem dynamic_point_nonnegative (i : Inputs) (idx : Z) :
  dynamicReady i ->
  maxDynamicContentSize i = None ->
  0 <= contentHeight i -> 0 <= handleHeight i -> 0 <= footerHeight i ->
  let r := normalizedSnapPoints i idx in
  Z.min (contentHeight i + handleHeight i + footerHeight i) (containerHeight i)
    <= containerHeight i /\
  0 <= dynamicSnapPoint i /\
  exists d, at_ (fst r) (snd r) = Some d /\ 0 <= d.
Proof.
  intros Hr Hcap Hc Hh Hf. cbn zeta.
  assert (0 <= dynamicSnapPoint i) as Hd
    by (unfold dynamicSnapPoint; rewrite Hcap; lia).
  repeat split; [lia | exact Hd |].
  exists (dynamicSnapPoint i). split; [|exact Hd].
  now apply dynamic_index_valid.
Qed.

(** C10: an absent [snapPoints] prop is read as the empty list: with
    dynamic sizing disabled and the container measured the result is the
    empty array, and with dynamic sizing enabled and all measurements
    ready it is the one-element array of the dynamic snap point, whose
    recorded index is 0. *)
Theorem absent_snap_points (i : Inputs) (idx : Z) :
  snapPoints i = Absent ->
  _snapPoints i = [] /\
  (containerReady i -> enableDynamicSizing i = false ->
   fst (normalizedSnapPoints i idx) = []) /\
  (dynamicReady i ->
   normalizedSnapPoints i idx = ([dynamicSnapPoint i], 0)).
Proof.
  intros Habs.
  assert (_snapPoints i = []) as Hnil by (unfold _snapPoints; now rewrite Habs).
  assert (_normalizedSnapPoints i = []) as Hn
    by (unfold _normalizedSnapPoints; now rewrite Hnil).
  repeat split.
  - exact Hnil.
  - intros Hc He. rewrite run_no_dynamic by assumption. exact Hn.
  - intros Hr. rewrite (run_dynamic i idx Hr), Hn. simpl.
    unfold indexOf. simpl. now rewrite Z.eqb_refl.
Qed.

End Index.

(** ** The has-dynamic-snap-point flag *)

(** What the second derived value computes: dynamic sizing, or a truthy
    first string entry. *)
Lemma hasDynamicSnapPoint_unfold (i : Inputs) :
  hasDynamicSnapPoint i =
  enableDynamicSizing i ||
  match find isString (_snapPoints i) with
  | Some snapPoint => truthy snapPoint
  | None => false
  end.
Proof.
  unfold hasDynamicSnapPoint. destruct (enableDynamicSizing i); [reflexivity|].
  destruct (_snapPoints i) as [|x t]; [reflexivity|].
  cbn [orb]. replace (negb (Z.of_nat (List.length (x :: t)) =? 0)) with true.
  - cbn [andb]. now destruct (find isString (x :: t)) as [sp|]; [destruct (truthy sp)|].
  - symmetry. apply negb_true_iff, Z.eqb_neq. cbn [List.length]. lia.
Qed.

Lemma find_isString_none (l : list SnapPoint) :
  find isString l = None <-> existsb isString l = false.
Proof.
  induction l as [|x t IH]; simpl; [tauto|].
  destruct (isString x); simpl; [split; discriminate | exact IH].
Qed.

(** Where no string entry is empty, the flag is the documented one:
    dynamic sizing enabled, or some entry is a string. *)
Lemma hasDynamicSnapPoint_nonempty_strings (i : Inputs) :
  (forall s, In (Str s) (_snapPoints i) -> s <> EmptyString) ->
  hasDynamicSnapPoint i =
  enableDynamicSizing i || existsb isString (_snapPoints i).
Proof.
  intros Hne. rewrite hasDynamicSnapPoint_unfold. f_equal.
  destruct (find isString (_snapPoints i)) as [sp|] eqn:Hfind.
  - apply find_some in Hfind. destruct Hfind as [Hin Hstr].
    assert (existsb isString (_snapPoints i) = true) as ->
      by (apply existsb_exists; eauto).
    destruct sp as [n|s]; [discriminate|]. simpl.
    apply negb_true_iff, String.eqb_neq. now apply Hne.
  - symmetry. now apply find_isString_none.
Qed.

(** With dynamic sizing enabled the flag is true. *)
Lemma hasDynamicSnapPoint_enabled (i : Inputs) :
  enableDynamicSizing i = true -> hasDynamicSnapPoint i = true.
Proof. intros He. unfold hasDynamicSnapPoint. now rewrite He. Qed.

(** C7, the code at the failing input: the provided list holds the
    percentage string ["50%"], dynamic sizing is off, and the flag is
    [false], because [find] returns the empty string that comes first and
    the [if] tests its truthiness. The comment of lines 129-131 and the
    claim both ask for [true]. *)
Theorem hasDynamicSnapPoint_empty_string_first :
  let i := {| snapPoints := Plain [Str EmptyString; Str "50%"];
              containerHeight := 600; contentHeight := 300;
              handleHeight := 24; footerHeight := 0;
              enableDynamicSizing := false;
              maxDynamicContentSize := None |} in
  In (Str "50%") (_snapPoints i) /\
  existsb isString (_snapPoints i) = true /\
  hasDynamicSnapPoint i = false.
Proof. cbn zeta. repeat split. simpl. right. now left. Qed.

(** ** The worklet on concrete inputs *)

Section Concrete.

Import Sample.

Ltac ready :=
  repeat split; cbv; (reflexivity || discriminate || (intros; discriminate)).

(** C1, counterexample: the provided list holds 300 twice and the dynamic
    snap point is 300 as well; it is not pushed, nothing removes the
    duplicate, and the result contains it twice. *)
Lemma dynamic_point_twice :
  let i := {| snapPoints := Plain [Px 300; Px 300];
              containerHeight := 600; contentHeight := 250;
              handleHeight := 24; footerHeight := 26;
              enableDynamicSizing := true;
              maxDynamicContentSize := None |} in
  dynamicReady (imports := imports) i /\
  dynamicSnapPoint i = 300 /\
  fst (run i (-1)) = [300; 300] /\
  count_occ Z.eq_dec (fst (run i (-1))) (dynamicSnapPoint i) <> 1%nat.
Proof.
  cbn zeta. split; [ready|]. repeat split. vm_compute. discriminate.
Qed.

Lemma dynamic_point_included_and_sorted_witness :
  let i := {| snapPoints := Plain [Px 100; Str "50%"; Px 450];
              containerHeight := 600; contentHeight := 250;
              handleHeight := 24; footerHeight := 26;
              enableDynamicSizing := true;
              maxDynamicContentSize := None |} in
  dynamicReady (imports := imports) i /\
  fst (run i (-1)) = [450; 300; 100] /\
  count_occ Z.eq_dec (fst (run i (-1))) (dynamicSnapPoint i) = 1%nat /\
  descending (fst (run i (-1))).
Proof.
  cbn zeta.
  assert (dynamicReady (imports := imports)
            {| snapPoints := Plain [Px 100; Str "50%"; Px 450];
               containerHeight := 600; contentHeight := 250;
               handleHeight := 24; footerHeight := 26;
               enableDynamicSizing := true;
               maxDynamicContentSize := None |}) as Hr by ready.
  split; [exact Hr|]. split; [reflexivity|].
  destruct (dynamic_point_included_and_sorted (imports := imports) _ (-1) Hr)
    as (_ & _ & Honce & Hsorted).
  split; [apply Honce; vm_compute; repeat constructor | exact Hsorted].
Defined.

Lemma dynamic_point_value_witness :
  let i := {| snapPoints := Plain [Px 100; Str "50%"; Px 450];
              containerHeight := 600; contentHeight := 250;
              handleHeight := 24; footerHeight := 26;
              enableDynamicSizing := true;
              maxDynamicContentSize := Some 200 |} in
  dynamicReady (imports := imports) i /\
  run i (-1) = ([450; 400; 300; 100], 1) /\
  at_ (fst (run i (-1))) (snd (run i (-1))) = Some (600 - Z.min (250 + 24 + 26) 200).
Proof.
  cbn zeta.
  assert (dynamicReady (imports := imports)
            {| snapPoints := Plain [Px 100; Str "50%"; Px 450];
               containerHeight := 600; contentHeight := 250;
               handleHeight := 24; footerHeight := 26;
               enableDynamicSizing := true;
               maxDynamicContentSize := Some 200 |}) as Hr by ready.
  split; [exact Hr|]. split; [reflexivity|].
  exact (dynamic_point_value (imports := imports) _ (-1) Hr).
Defined.

(** C3, counterexample: every measurement is ready, yet the content is
    taller than the cap, the cap exceeds the container by 999, and the
    dynamic snap point is the sentinel value: the result is the sentinel
    array in a state with ready layout. *)
Lemma sentinel_with_ready_layout :
  let i := {| snapPoints := Absent;
              containerHeight := 800; contentHeight := 1800;
              handleHeight := 24; footerHeight := 0;
              enableDynamicSizing := true;
              maxDynamicContentSize := Some 1799 |} in
  ~ layoutNotReady (imports := imports) i /\
  fst (run i (-1)) = [INITIAL_SNAP_POINT (Imports := imports)].
Proof.
  cbn zeta. split; [|reflexivity].
  unfold layoutNotReady. cbn. intros [H|[_ [H|H]]]; discriminate H.
Qed.

Lemma sentinel_characterisation_witness :
  let i := {| snapPoints := Plain [Px 100];
              containerHeight := 600; contentHeight := 250;
              handleHeight := -999; footerHeight := 0;
              enableDynamicSizing := true;
              maxDynamicContentSize := None |} in
  layoutNotReady (imports := imports) i /\
  fst (run i 3) = [-999].
Proof.
  cbn zeta.
  assert (layoutNotReady (imports := imports)
            {| snapPoints := Plain [Px 100];
               containerHeight := 600; contentHeight := 250;
               handleHeight := -999; footerHeight := 0;
               enableDynamicSizing := true;
               maxDynamicContentSize := None |}) as Hn
    by (right; split; [reflexivity | left; reflexivity]).
  split; [exact Hn|].
  exact (proj1 (sentinel_characterisation (imports := imports) _ 3) Hn).
Defined.

Lemma no_dynamic_sizing_keeps_order_witness :
  let i := {| snapPoints := Shared [Px 100; Str "50%"; Px 100];
              containerHeight := 600; contentHeight := -999;
              handleHeight := -999; footerHeight := 0;
              enableDynamicSizing := false;
              maxDynamicContentSize := None |} in
  containerReady (imports := imports) i /\
  enableDynamicSizing i = false /\
  fst (run i (-1)) = [100; 300; 100] /\
  List.length (fst (run i (-1))) = 3%nat.
Proof.
  cbn zeta.
  assert (containerReady (imports := imports)
            {| snapPoints := Shared [Px 100; Str "50%"; Px 100];
               containerHeight := 600; contentHeight := -999;
               handleHeight := -999; footerHeight := 0;
               enableDynamicSizing := false;
               maxDynamicContentSize := None |}) as Hc
    by (cbv; discriminate).
  split; [exact Hc|]. split; [reflexivity|].
  destruct (no_dynamic_sizing_keeps_order (imports := imports) _ (-1) Hc eq_refl)
    as (Hmap & Hlen & _).
  split; [exact Hmap | exact Hlen].
Defined.



Lemma index_written_only_by_dynamic_branch_witness :
  let i := {| snapPoints := Plain [Px 500];
              containerHeight := 600; contentHeight := -999;
              handleHeight := 24; footerHeight := 0;
              enableDynamicSizing := true;
              maxDynamicContentSize := None |} in
  contentHeight i = INITIAL_CONTAINER_HEIGHT (Imports := imports) /\
  snd (run i 7) = 7.
Proof.
  cbn zeta. split; [reflexivity|].
  apply (proj1 (index_written_only_by_dynamic_branch (imports := imports) _ 7)).
  right; right; right. reflexivity.
Defined.

Lemma dynamic_point_nonnegative_witness :
  let i := {| snapPoints := Plain [Px 500];
              containerHeight := 600; contentHeight := 700;
              handleHeight := 24; footerHeight := 40;
              enableDynamicSizing := true;
              maxDynamicContentSize := None |} in
  dynamicReady (imports := imports) i /\
  maxDynamicContentSize i = None /\
  0 <= contentHeight i /\ 0 <= handleHeight i /\ 0 <= footerHeight i /\
  dynamicSnapPoint i = 0 /\
  0 <= dynamicSnapPoint i.
Proof.
  cbn zeta.
  assert (dynamicReady (imports := imports)
            {| snapPoints := Plain [Px 500];
               containerHeight := 600; contentHeight := 700;
               handleHeight := 24; footerHeight := 40;
               enableDynamicSizing := true;
               maxDynamicContentSize := None |}) as Hr by ready.
  split; [exact Hr|]. split; [reflexivity|].
  split; [cbn; lia|]. split; [cbn; lia|]. split; [cbn; lia|].
  split; [reflexivity|].
  refine (proj1 (proj2 (dynamic_point_nonnegative (imports := imports) _ (-1)
                          Hr eq_refl _ _ _))); cbn; lia.
Defined.

Lemma absent_snap_points_witness :
  let i := {| snapPoints := Absent;
              containerHeight := 600; contentHeight := 300;
              handleHeight := 24; footerHeight := 0;
              enableDynamicSizing := true;
              maxDynamicContentSize := None |} in
  snapPoints i = Absent /\
  dynamicReady (imports := imports) i /\
  run i (-1) = ([276], 0).
Proof.
  cbn zeta.
  assert (dynamicReady (imports := imports)
            {| snapPoints := Absent;
               containerHeight := 600; contentHeight := 300;
               handleHeight := 24; footerHeight := 0;
               enableDynamicSizing := true;
               maxDynamicContentSize := None |}) as Hr by ready.
  split; [reflexivity|]. split; [exact Hr|].
  match type of Hr with
  | dynamicReady ?i =>
      destruct (absent_snap_points (imports := imports) i (-1) eq_refl)
        as (_ & _ & Hdyn)
  end.
  exact (Hdyn Hr).
Defined.

End Concrete.

(** ** Independence from the imports

    The three counterexamples above run the worklet at the sample imports.
    The same situations arise whatever the constants and the helper are. *)

Section AnyImports.

Context {imports : Imports}.

(** A provided entry listed twice and equal, once normalized, to the
    dynamic snap point is returned twice. *)
Lemma dynamic_point_twice_any_imports (p : SnapPoint) :
  exists i, dynamicReady i /\
    forall idx, count_occ Z.eq_dec (fst (normalizedSnapPoints i idx))
                  (dynamicSnapPoint i) = 2%nat.
Proof.
  set (c := INITIAL_CONTAINER_HEIGHT + 1).
  set (v := normalizeSnapPoint p c).
  set (i := {| snapPoints := Plain [p; p];
               containerHeight := c;
               contentHeight := INITIAL_CONTAINER_HEIGHT + 1;
               handleHeight := INITIAL_HANDLE_HEIGHT + 1;
               footerHeight := (c - v) - (INITIAL_CONTAINER_HEIGHT + 1)
                               - (INITIAL_HANDLE_HEIGHT + 1);
               enableDynamicSizing := true;
               maxDynamicContentSize := Some (c - v) |}).
  assert (dynamicReady i) as Hr
    by (repeat split; unfold containerReady, handleReady, contentReady;
        cbn; subst c; lia).
  exists i. split; [exact Hr|]. intros idx.
  rewrite (run_dynamic i idx Hr). cbn [fst].
  rewrite dynamic_point_count.
  assert (dynamicSnapPoint i = v) as -> by (unfold dynamicSnapPoint; cbn; lia).
  unfold _normalizedSnapPoints. cbn. fold c. fold v.
  destruct (Z.eq_dec v v); [reflexivity | contradiction].
Qed.

(** A state with ready layout that returns the sentinel array. *)
Lemma sentinel_with_ready_layout_any_imports :
  exists i, ~ layoutNotReady i /\
    forall idx, fst (normalizedSnapPoints i idx) = [INITIAL_SNAP_POINT].
Proof.
  set (c := INITIAL_CONTAINER_HEIGHT + 1).
  set (i := {| snapPoints := Absent;
               containerHeight := c;
               contentHeight := INITIAL_CONTAINER_HEIGHT + 1;
               handleHeight := INITIAL_HANDLE_HEIGHT + 1;
               footerHeight := (c - INITIAL_SNAP_POINT)
                               - (INITIAL_CONTAINER_HEIGHT + 1)
                               - (INITIAL_HANDLE_HEIGHT + 1);
               enableDynamicSizing := true;
               maxDynamicContentSize := Some (c - INITIAL_SNAP_POINT) |}).
  assert (dynamicReady i) as Hr
    by (repeat split; unfold containerReady, handleReady, contentReady;
        cbn; subst c; lia).
  exists i. split.
  - unfold layoutNotReady. cbn. subst c. lia.
  - intros idx. rewrite (run_dynamic i idx Hr). cbn [fst].
    apply dynamic_singleton. split; [|now left].
    unfold dynamicSnapPoint. cbn. lia.
Qed.

(** Two provided entries in ascending normalized order are returned in
    that order when dynamic sizing is off. *)
Lemma unsorted_any_imports (c : Z) (p q : SnapPoint) :
  c <> INITIAL_CONTAINER_HEIGHT ->
  normalizeSnapPoint p c < normalizeSnapPoint q c ->
  exists i, forall idx, ~ descending (fst (normalizedSnapPoints i idx)).
Proof.
  intros Hc Hlt.
  exists {| snapPoints := Plain [p; q];
            containerHeight := c; contentHeight := 0;
            handleHeight := 0; footerHeight := 0;
            enableDynamicSizing := false;
            maxDynamicContentSize := None |}.
  intros idx. rewrite run_no_dynamic by (exact Hc || reflexivity).
  cbn. intros Hs. apply StronglySorted_inv in Hs. destruct Hs as [_ Hall].
  apply Forall_inv in Hall. lia.
Qed.

End AnyImports.

(** * Further properties of the worklet *)

(** ** The array of the full branch *)

Section FullBranch.

Context {imports : Imports}.

Lemma pushed_In (l0 : list Z) (d x : Z) :
  In x (if includes l0 d then l0 else push l0 d) <-> In x l0 \/ x = d.
Proof.
  destruct (includes l0 d) eqn:Hinc.
  - apply includes_In in Hinc. split; [now left|].
    intros [Hx| ->]; assumption.
  - unfold push. rewrite in_app_iff. simpl. split.
    + intros [Hx|[Hx|[]]]; [now left | right; now symmetry].
    + intros [Hx| ->]; [now left | right; now left].
Qed.

(** X1: with dynamic sizing enabled and all measurements ready, the
    returned array holds the normalized provided snap points and the
    dynamic snap point and nothing else: no provided point is dropped and
    no other value appears. *)
Theorem full_branch_members (i : Inputs) (idx x : Z) :
  dynamicReady i ->
  (In x (fst (normalizedSnapPoints i idx)) <->
   In x (_normalizedSnapPoints i) \/ x = dynamicSnapPoint i).
Proof.
  intros Hr. rewrite (run_dynamic i idx Hr). cbn [fst].
  rewrite sort_In. apply pushed_In.
Qed.

(** X2: in that state the returned array is one element longer than the
    provided list when the dynamic snap point is not among the normalized
    provided points, and as long as the provided list when it is; it is
    never empty. *)
Theorem full_branch_length (i : Inputs) (idx : Z) :
  dynamicReady i ->
  let n := List.length (fst (normalizedSnapPoints i idx)) in
  (In (dynamicSnapPoint i) (_normalizedSnapPoints i) ->
   n = List.length (_snapPoints i)) /\
  (~ In (dynamicSnapPoint i) (_normalizedSnapPoints i) ->
   n = S (List.length (_snapPoints i))) /\
  (1 <= n)%nat.
Proof.
  intros Hr. cbn zeta. rewrite (run_dynamic i idx Hr). cbn [fst].
  rewrite sort_length.
  assert (List.length (_normalizedSnapPoints i) = List.length (_snapPoints i))
    as Hlen by (unfold _normalizedSnapPoints; apply length_map).
  destruct (includes (_normalizedSnapPoints i) (dynamicSnapPoint i)) eqn:Hinc.
  - apply includes_In in Hinc. repeat split.
    + intros _. exact Hlen.
    + intros Hn. contradiction.
    + destruct (_normalizedSnapPoints i); [destruct Hinc | simpl; lia].
  - apply includes_false in Hinc. unfold push. rewrite length_app. simpl.
    repeat split.
    + intros Hin. contradiction.
    + intros _. lia.
    + lia.
Qed.

(** X3: over all states, the worklet returns the empty array in one
    situation only: the container is measured, dynamic sizing is off and
    the provided list is empty or absent. *)
Theorem empty_result_iff (i : Inputs) (idx : Z) :
  fst (normalizedSnapPoints i idx) = [] <->
  containerReady i /\ enableDynamicSizing i = false /\ _snapPoints i = [].
Proof.
  split.
  - intros Hnil.
    destruct (Z.eq_dec (containerHeight i) INITIAL_CONTAINER_HEIGHT) as [Hc|Hc];
      [rewrite run_container_not_ready in Hnil by assumption; discriminate|].
    destruct (enableDynamicSizing i) eqn:He.
    + exfalso.
      destruct (Z.eq_dec (handleHeight i) INITIAL_HANDLE_HEIGHT) as [Hh|Hh];
        [rewrite run_handle_not_ready in Hnil by assumption; discriminate|].
      destruct (Z.eq_dec (contentHeight i) INITIAL_CONTAINER_HEIGHT) as [Hn|Hn];
        [rewrite run_content_not_ready in Hnil by assumption; discriminate|].
      assert (dynamicReady i) as Hr by (repeat split; assumption).
      pose proof (dynamic_point_In (_normalizedSnapPoints i)
                    (dynamicSnapPoint i)) as Hin.
      rewrite (run_dynamic i idx Hr) in Hnil. cbn [fst] in Hnil.
      rewrite Hnil in Hin. destruct Hin.
    + rewrite run_no_dynamic in Hnil by assumption. cbn [fst] in Hnil.
      repeat split; try assumption.
      unfold _normalizedSnapPoints in Hnil. now apply map_eq_nil in Hnil.
  - intros (Hc & He & Hnil). rewrite run_no_dynamic by assumption.
    cbn [fst]. unfold _normalizedSnapPoints. now rewrite Hnil.
Qed.

(** X4: the full branch adds no duplicate: when the normalized provided
    points are pairwise different, so are the elements of the returned
    array. *)
Theorem full_branch_no_duplicates (i : Inputs) (idx : Z) :
  dynamicReady i ->
  NoDup (_normalizedSnapPoints i) ->
  NoDup (fst (normalizedSnapPoints i idx)).
Proof.
  intros Hr Hnd. rewrite (run_dynamic i idx Hr). cbn [fst].
  apply (Permutation_NoDup (sort_perm _)).
  destruct (includes (_normalizedSnapPoints i) (dynamicSnapPoint i)) eqn:Hinc;
    [exact Hnd|].
  apply includes_false in Hinc. unfold push.
  apply (Permutation_NoDup (Permutation_cons_append _ _)).
  now constructor.
Qed.

Lemma filter_none (f : Z -> bool) (l : list Z) :
  (forall x, In x l -> f x = false) -> filter f l = [].
Proof.
  induction l as [|y t IH]; intros Hall; simpl; [reflexivity|].
  rewrite (Hall y) by now left.
  apply IH. intros x Hx. apply Hall. now right.
Qed.

(** In a descending array the first position of an element is the number
    of elements above it. *)
Lemma indexOf_from_descending (l : list Z) (d k : Z) :
  descending l -> In d l ->
  indexOf_from k l d = k + Z.of_nat (List.length (filter (fun x => d <? x) l)).
Proof.
  unfold descending. revert k. induction l as [|y t IH]; intros k Hs Hin;
    [destruct Hin|].
  apply StronglySorted_inv in Hs. destruct Hs as [Ht Hy].
  rewrite Forall_forall in Hy. cbn [indexOf_from filter].
  destruct (Z.eqb_spec y d) as [->|Hne].
  - rewrite Z.ltb_irrefl.
    replace (filter (fun x => d <? x) t) with (@nil Z); [simpl; lia|].
    symmetry. apply filter_none. intros z Hz. specialize (Hy z Hz).
    apply Z.ltb_ge. lia.
  - destruct Hin as [Heq|Hin]; [contradiction|].
    specialize (Hy d Hin).
    replace (d <? y) with true by (symmetry; apply Z.ltb_lt; lia).
    rewrite (IH (k + 1) Ht Hin). cbn [List.length]. lia.
Qed.

Lemma filter_length_perm (f : Z -> bool) (l l' : list Z) :
  Permutation l l' ->
  List.length (filter f l) = List.length (filter f l').
Proof.
  induction 1 as [|x l l' HP IH|x y l|l l' l'' HP1 IH1 HP2 IH2]; simpl.
  - reflexivity.
  - destruct (f x); simpl; now rewrite IH.
  - destruct (f x), (f y); reflexivity.
  - now rewrite IH1.
Qed.

(** X5: the index the full branch records is the number of normalized
    provided snap points strictly above the dynamic snap point; it is 0
    exactly when no provided point lies above it. *)
Theorem dynamic_index_counts_higher_points (i : Inputs) (idx : Z) :
  dynamicReady i ->
  let higher := filter (fun x => dynamicSnapPoint i <? x)
                       (_normalizedSnapPoints i) in
  snd (normalizedSnapPoints i idx) = Z.of_nat (List.length higher) /\
  (snd (normalizedSnapPoints i idx) = 0 <->
   forall x, In x (_normalizedSnapPoints i) -> x <= dynamicSnapPoint i).
Proof.
  intros Hr. cbn zeta. rewrite (run_dynamic i idx Hr). cbn [snd].
  set (d := dynamicSnapPoint i). set (l0 := _normalizedSnapPoints i).
  assert (indexOf (sort (if includes l0 d then l0 else push l0 d)) d
          = Z.of_nat (List.length (filter (fun x => d <? x) l0))) as Hidx.
  { unfold indexOf.
    rewrite indexOf_from_descending
      by (apply sort_descending || apply dynamic_point_In).
    rewrite Z.add_0_l. f_equal.
    rewrite <- (filter_length_perm _ _ _ (sort_perm _)).
    destruct (includes l0 d); [reflexivity|].
    unfold push. rewrite filter_app. simpl. rewrite Z.ltb_irrefl.
    now rewrite app_nil_r. }
  split; [exact Hidx|]. rewrite Hidx. split.
  - intros Hz x Hx.
    destruct (Z.ltb_spec d x) as [Hlt|Hle]; [|exact Hle].
    assert (In x (filter (fun x => d <? x) l0)) as Hf
      by (apply filter_In; split; [exact Hx | now apply Z.ltb_lt]).
    destruct (filter (fun x => d <? x) l0); [destruct Hf | simpl in Hz; lia].
  - intros Hall.
    replace (filter (fun x => d <? x) l0) with (@nil Z); [reflexivity|].
    symmetry. apply filter_none. intros z Hz. specialize (Hall z Hz).
    now apply Z.ltb_ge.
Qed.

(** X6: in the full branch the order in which the snap points are
    provided does not matter: a rearranged provided list gives the same
    array and the same index. *)
Theorem full_branch_ignores_provided_order
  (i : Inputs) (rearranged : list SnapPoint) (idx idx' : Z) :
  dynamicReady i ->
  Permutation (_snapPoints i) rearranged ->
  normalizedSnapPoints
    {| snapPoints := Plain rearranged;
       containerHeight := containerHeight i;
       contentHeight := contentHeight i;
       handleHeight := handleHeight i;
       footerHeight := footerHeight i;
       enableDynamicSizing := enableDynamicSizing i;
       maxDynamicContentSize := maxDynamicContentSize i |} idx'
  = normalizedSnapPoints i idx.
Proof.
  intros Hr HP.
  set (j := {| snapPoints := Plain rearranged;
               containerHeight := containerHeight i;
               contentHeight := contentHeight i;
               handleHeight := handleHeight i;
               footerHeight := footerHeight i;
               enableDynamicSizing := enableDynamicSizing i;
               maxDynamicContentSize := maxDynamicContentSize i |}).
  assert (dynamicReady j) as Hrj by exact Hr.
  rewrite (run_dynamic i idx Hr), (run_dynamic j idx' Hrj).
  change (dynamicSnapPoint j) with (dynamicSnapPoint i).
  set (d := dynamicSnapPoint i).
  assert (Permutation (_normalizedSnapPoints i) (_normalizedSnapPoints j)) as HPn
    by (unfold _normalizedSnapPoints; now apply Permutation_map).
  assert (sort (if includes (_normalizedSnapPoints j) d
                then _normalizedSnapPoints j
                else push (_normalizedSnapPoints j) d)
          = sort (if includes (_normalizedSnapPoints i) d
                  then _normalizedSnapPoints i
                  else push (_normalizedSnapPoints i) d)) as ->.
  { apply sort_unique; [|apply sort_descending].
    rewrite <- sort_perm.
    destruct (includes (_normalizedSnapPoints i) d) eqn:Hi,
             (includes (_normalizedSnapPoints j) d) eqn:Hj.
    - exact HPn.
    - apply includes_In in Hi. apply includes_false in Hj.
      exfalso. apply Hj. now apply (Permutation_in _ HPn).
    - apply includes_In in Hj. apply includes_false in Hi.
      exfalso. apply Hi. now apply (Permutation_in _ (Permutation_sym HPn)).
    - unfold push. now apply Permutation_app_tail. }
  reflexivity.
Qed.

End FullBranch.

(** ** Recomputations over time *)

Section OverTime.

Context {imports : Imports}.

Lemma dynamicReadyb_spec (i : Inputs) :
  dynamicReadyb i = true <-> dynamicReady i.
Proof.
  unfold dynamicReadyb, dynamicReady, containerReady, handleReady, contentReady.
  rewrite !andb_true_iff, !negb_true_iff, !Z.eqb_neq. tauto.
Qed.

Lemma not_ready_early_exit (i : Inputs) :
  dynamicReadyb i = false ->
  containerHeight i = INITIAL_CONTAINER_HEIGHT \/
  enableDynamicSizing i = false \/
  handleHeight i = INITIAL_HANDLE_HEIGHT \/
  contentHeight i = INITIAL_CONTAINER_HEIGHT.
Proof.
  intros Hb. destruct (early_exit_or_dynamic i) as [Hexit|Hr]; [exact Hexit|].
  apply dynamicReadyb_spec in Hr. congruence.
Qed.

(** The array the worklet returns does not depend on the shared index. *)
Lemma result_ignores_index (i : Inputs) (k k' : Z) :
  fst (normalizedSnapPoints i k) = fst (normalizedSnapPoints i k').
Proof.
  unfold normalizedSnapPoints.
  destruct (negb (negb (containerHeight i =? INITIAL_CONTAINER_HEIGHT)));
    [reflexivity|].
  destruct (negb (enableDynamicSizing i)); [reflexivity|].
  destruct (handleHeight i =? INITIAL_HANDLE_HEIGHT); [reflexivity|].
  destruct (contentHeight i =? INITIAL_CONTAINER_HEIGHT); reflexivity.
Qed.

(** X7: running the worklet again on unchanged inputs changes nothing:
    the array and the shared index are those of the first run, on the
    early exits as on the full branch. *)
Theorem recompute_idempotent (i : Inputs) (k : Z) :
  recompute i (st_index (recompute i k)) = recompute i k.
Proof.
  unfold recompute. cbn [st_index].
  destruct (early_exit_or_dynamic i) as [Hexit|Hr].
  - now rewrite !(early_exit_keeps_index i k Hexit).
  - now rewrite (run_dynamic i _ Hr), (run_dynamic i k Hr).
Qed.

(** X8: the array of a reachable state is the one the worklet computes
    from the latest inputs alone, whatever happened before; and when the
    latest recomputation took the full branch the whole state is the one
    of a hook freshly mounted with these inputs. *)
Theorem reachable_state_from_latest_inputs (s : HookState) :
  reachable s ->
  (forall k, st_normalized s = fst (normalizedSnapPoints (st_inputs s) k)) /\
  (dynamicReady (st_inputs s) -> s = recompute (st_inputs s) (-1)).
Proof.
  intros Hreach. destruct Hreach as [i|s i Hs];
    cbn [recompute st_inputs st_normalized st_index].
  - split; [intros k; apply result_ignores_index | reflexivity].
  - split; [intros k; apply result_ignores_index|].
    intros Hr. unfold recompute.
    now rewrite (run_dynamic i _ Hr), (run_dynamic i (-1) Hr).
Qed.

Lemma recompute_all_snoc (i : Inputs) (updates : list Inputs) (u : Inputs) :
  recompute_all i (updates ++ [u])
  = recompute u (st_index (recompute_all i updates)).
Proof. unfold recompute_all. now rewrite fold_left_app. Qed.

(** The reachable states are those obtained by mounting and recomputing
    for a list of updates. *)
Lemma reachable_recompute_all (s : HookState) :
  reachable s <-> exists i updates, s = recompute_all i updates.
Proof.
  split.
  - induction 1 as [i|s i Hs IH].
    + exists i, []. reflexivity.
    + destruct IH as (i0 & updates & ->).
      exists i0, (updates ++ [i]). now rewrite recompute_all_snoc.
  - intros (i & updates & ->).
    induction updates as [|u updates IH] using rev_ind.
    + apply reachable_mount.
    + rewrite recompute_all_snoc. now apply reachable_update.
Qed.

(** X9: after mounting and any sequence of updates, the shared index is
    the one written by the most recent recomputation that took the full
    branch, the position of that recomputation's dynamic snap point in
    that recomputation's array; it is [-1] when none took the full
    branch. *)
Theorem index_is_last_written (i : Inputs) (updates : list Inputs) :
  st_index (recompute_all i updates) =
  match find dynamicReadyb (rev (i :: updates)) with
  | Some j => indexOf (fst (normalizedSnapPoints j (-1))) (dynamicSnapPoint j)
  | None => -1
  end.
Proof.
  assert (forall u k,
    st_index (recompute u k) =
    if dynamicReadyb u
    then indexOf (fst (normalizedSnapPoints u (-1))) (dynamicSnapPoint u)
    else k) as Hone.
  { intros u k. unfold recompute. cbn [st_index].
    destruct (dynamicReadyb u) eqn:Hb.
    - apply dynamicReadyb_spec in Hb.
      now rewrite (run_dynamic u k Hb), (run_dynamic u (-1) Hb).
    - apply early_exit_keeps_index, not_ready_early_exit, Hb. }
  induction updates as [|u updates IH] using rev_ind.
  - cbn [rev app find]. unfold recompute_all. cbn [fold_left].
    rewrite Hone. now destruct (dynamicReadyb i).
  - rewrite recompute_all_snoc, Hone, IH.
    rewrite app_comm_cons, rev_app_distr. cbn [rev app find].
    now destruct (dynamicReadyb u).
Qed.

End OverTime.

(** ** The flag and the values returned together *)

Section Returned.

Context {imports : Imports}.

(** X10: the flag is never true without a reason: when it is true,
    dynamic sizing is enabled or the provided list holds a non-empty
    string. In particular a list of numbers, an empty list and an absent
    prop give [false] when dynamic sizing is off. *)
Theorem hasDynamicSnapPoint_true_has_cause (i : Inputs) :
  hasDynamicSnapPoint i = true ->
  enableDynamicSizing i = true \/
  exists s, In (Str s) (_snapPoints i) /\ s <> EmptyString.
Proof.
  rewrite hasDynamicSnapPoint_unfold. intros Hflag.
  apply orb_true_iff in Hflag. destruct Hflag as [He|Hfind]; [now left|].
  right. destruct (find isString (_snapPoints i)) as [sp|] eqn:Hf;
    [|discriminate].
  apply find_some in Hf. destruct Hf as [Hin Hstr].
  destruct sp as [n|s]; [discriminate|].
  exists s. split; [exact Hin|].
  simpl in Hfind. apply negb_true_iff in Hfind. now apply String.eqb_neq.
Qed.

(** X11: the three returned values fit together. When the flag is false
    the worklet took an early exit: the index is the one it had, and the
    array is the sentinel array (container not measured) or the
    normalized provided list in the provided order. When the worklet took
    the full branch the flag is true and the returned index points at the
    dynamic snap point in the returned array. *)
Theorem returned_values_consistent (i : Inputs) (idx : Z) :
  (hasDynamicSnapPoint i = false ->
   useAnimatedSnapPoints i idx =
   (if containerHeight i =? INITIAL_CONTAINER_HEIGHT
    then [INITIAL_SNAP_POINT] else _normalizedSnapPoints i,
    idx, false)) /\
  (dynamicReady i ->
   exists l k, useAnimatedSnapPoints i idx = (l, k, true) /\
               at_ l k = Some (dynamicSnapPoint i)).
Proof.
  unfold useAnimatedSnapPoints. cbn zeta. split.
  - intros Hflag. rewrite Hflag.
    assert (enableDynamicSizing i = false) as He.
    { destruct (enableDynamicSizing i) eqn:He; [|reflexivity].
      rewrite (hasDynamicSnapPoint_enabled i He) in Hflag. discriminate. }
    destruct (Z.eqb_spec (containerHeight i) INITIAL_CONTAINER_HEIGHT) as [Hc|Hc].
    + now rewrite run_container_not_ready.
    + now rewrite run_no_dynamic.
  - intros Hr.
    exists (fst (normalizedSnapPoints i idx)), (snd (normalizedSnapPoints i idx)).
    rewrite (hasDynamicSnapPoint_enabled i (proj1 Hr)).
    split; [reflexivity | now apply dynamic_index_valid].
Qed.

(** X12: the dynamic snap point never rises when the content grows, the
    other sizes and the cap unchanged; and once content, handle and
    footer together reach the limit (the cap, or the container height
    when there is no cap) it stays at container height minus the limit. *)
Theorem dynamic_point_monotone_in_content (i j : Inputs) :
  containerHeight j = containerHeight i ->
  handleHeight j = handleHeight i ->
  footerHeight j = footerHeight i ->
  maxDynamicContentSize j = maxDynamicContentSize i ->
  contentHeight i <= contentHeight j ->
  let limit := match maxDynamicContentSize i with
               | Some cap => cap
               | None => containerHeight i
               end in
  dynamicSnapPoint j <= dynamicSnapPoint i /\
  (limit <= contentHeight i + handleHeight i + footerHeight i ->
   dynamicSnapPoint j = containerHeight i - limit /\
   dynamicSnapPoint i = containerHeight i - limit).
Proof.
  intros Hc Hh Hf Hm Hle. unfold dynamicSnapPoint.
  rewrite Hc, Hh, Hf, Hm. cbn zeta. split; [lia|]. intros Hlim. lia.
Qed.

End Returned.

(** ** The further properties on concrete inputs *)

Section FurtherConcrete.

Import Sample.

Lemma exampleInputs_ready : dynamicReady (imports := imports) exampleInputs.
Proof. repeat split; cbv; discriminate. Defined.

Lemma full_branch_members_witness :
  dynamicReady (imports := imports) exampleInputs /\
  fst (run exampleInputs (-1)) = [450; 300; 100] /\
  (In 450 (fst (run exampleInputs (-1))) <->
   In 450 (_normalizedSnapPoints (imports := imports) exampleInputs) \/
   450 = dynamicSnapPoint exampleInputs).
Proof.
  split; [exact exampleInputs_ready|]. split; [reflexivity|].
  exact (full_branch_members (imports := imports) exampleInputs (-1) 450
           exampleInputs_ready).
Defined.

Lemma full_branch_length_witness :
  dynamicReady (imports := imports) exampleInputs /\
  In (dynamicSnapPoint exampleInputs)
     (_normalizedSnapPoints (imports := imports) exampleInputs) /\
  List.length (fst (run exampleInputs (-1))) = 3%nat.
Proof.
  split; [exact exampleInputs_ready|].
  assert (In (dynamicSnapPoint exampleInputs)
            (_normalizedSnapPoints (imports := imports) exampleInputs)) as Hin
    by (right; left; reflexivity).
  split; [exact Hin|].
  exact (proj1 (full_branch_length (imports := imports) exampleInputs (-1)
                  exampleInputs_ready) Hin).
Defined.

Lemma full_branch_no_duplicates_witness :
  dynamicReady (imports := imports) exampleInputs /\
  NoDup (_normalizedSnapPoints (imports := imports) exampleInputs) /\
  NoDup (fst (run exampleInputs (-1))).
Proof.
  assert (NoDup (_normalizedSnapPoints (imports := imports) exampleInputs))
    as Hnd.
  { change (NoDup [100; 300; 450]).
    repeat constructor; simpl; intros H;
      repeat (destruct H as [H|H]; [discriminate H|]); exact H. }
  split; [exact exampleInputs_ready|]. split; [exact Hnd|].
  exact (full_branch_no_duplicates (imports := imports) exampleInputs (-1)
           exampleInputs_ready Hnd).
Defined.

Lemma dynamic_index_counts_higher_points_witness :
  dynamicReady (imports := imports) exampleInputs /\
  filter (fun x => dynamicSnapPoint exampleInputs <? x)
         (_normalizedSnapPoints (imports := imports) exampleInputs) = [450] /\
  snd (run exampleInputs (-1)) = 1.
Proof.
  split; [exact exampleInputs_ready|]. split; [reflexivity|].
  exact (proj1 (dynamic_index_counts_higher_points (imports := imports)
                  exampleInputs (-1) exampleInputs_ready)).
Defined.

Lemma full_branch_ignores_provided_order_witness :
  dynamicReady (imports := imports) exampleInputs /\
  Permutation (_snapPoints exampleInputs) [Px 450; Px 100; Str "50%"] /\
  run {| snapPoints := Plain [Px 450; Px 100; Str "50%"];
         containerHeight := 600; contentHeight := 250;
         handleHeight := 24; footerHeight := 26;
         enableDynamicSizing := true;
         maxDynamicContentSize := None |} 5
  = run exampleInputs (-1).
Proof.
  assert (Permutation (_snapPoints exampleInputs)
            [Px 450; Px 100; Str "50%"]) as HP.
  { change (Permutation [Px 100; Str "50%"; Px 450]
              [Px 450; Px 100; Str "50%"]).
    apply Permutation_sym.
    exact (Permutation_cons_append [Px 100; Str "50%"] (Px 450)). }
  split; [exact exampleInputs_ready|]. split; [exact HP|].
  exact (full_branch_ignores_provided_order (imports := imports) exampleInputs
           _ (-1) 5 exampleInputs_ready HP).
Defined.

Lemma reachable_state_from_latest_inputs_witness :
  let unmeasured := {| snapPoints := Plain [Px 500];
                       containerHeight := -999; contentHeight := 300;
                       handleHeight := 24; footerHeight := 0;
                       enableDynamicSizing := true;
                       maxDynamicContentSize := None |} in
  let s := recompute (imports := imports) exampleInputs
             (st_index (recompute (imports := imports) unmeasured (-1))) in
  reachable (imports := imports) s /\
  dynamicReady (imports := imports) (st_inputs s) /\
  s = recompute (imports := imports) exampleInputs (-1).
Proof.
  cbn zeta.
  pose proof (reachable_update (imports := imports) _ exampleInputs
                (reachable_mount (imports := imports)
                   {| snapPoints := Plain [Px 500];
                      containerHeight := -999; contentHeight := 300;
                      handleHeight := 24; footerHeight := 0;
                      enableDynamicSizing := true;
                      maxDynamicContentSize := None |})) as Hreach.
  split; [exact Hreach|]. split; [exact exampleInputs_ready|].
  exact (proj2 (reachable_state_from_latest_inputs (imports := imports) _ Hreach)
           exampleInputs_ready).
Defined.

Lemma hasDynamicSnapPoint_true_has_cause_witness :
  let i := {| snapPoints := Shared [Px 100; Str "50%"];
              containerHeight := 600; contentHeight := 250;
              handleHeight := 24; footerHeight := 0;
              enableDynamicSizing := false;
              maxDynamicContentSize := None |} in
  hasDynamicSnapPoint i = true /\
  (enableDynamicSizing i = true \/
   exists s, In (Str s) (_snapPoints i) /\ s <> EmptyString).
Proof.
  cbn zeta. split; [reflexivity|].
  apply hasDynamicSnapPoint_true_has_cause. reflexivity.
Defined.

Lemma returned_values_consistent_witness :
  let i := {| snapPoints := Plain [Px 100; Px 450];
              containerHeight := 600; contentHeight := 250;
              handleHeight := 24; footerHeight := 0;
              enableDynamicSizing := false;
              maxDynamicContentSize := None |} in
  hasDynamicSnapPoint i = false /\
  useAnimatedSnapPoints (imports := imports) i 4 = ([100; 450], 4, false).
Proof.
  cbn zeta. split; [reflexivity|].
  refine (proj1 (returned_values_consistent (imports := imports) _ 4) _).
  reflexivity.
Defined.

Lemma dynamic_point_monotone_in_content_witness :
  let taller := {| snapPoints := Plain [Px 100; Str "50%"; Px 450];
                   containerHeight := 600; contentHeight := 400;
                   handleHeight := 24; footerHeight := 26;
                   enableDynamicSizing := true;
                   maxDynamicContentSize := None |} in
  contentHeight exampleInputs <= contentHeight taller /\
  dynamicSnapPoint exampleInputs = 300 /\
  dynamicSnapPoint taller = 150 /\
  dynamicSnapPoint taller <= dynamicSnapPoint exampleInputs.
Proof.
  cbn zeta. split; [cbn; lia|]. split; [reflexivity|]. split; [reflexivity|].
  match goal with
  | |- dynamicSnapPoint ?j <= _ =>
      refine (proj1 (dynamic_point_monotone_in_content exampleInputs j
                       eq_refl eq_refl eq_refl eq_refl _))
  end.
  cbn. lia.
Defined.

End FurtherConcrete.

(** ** The flag on lists without empty strings *)

(** X13: when no provided string entry is the empty string, the flag is
    true exactly when dynamic sizing is enabled or some provided entry is
    a string, whether the list is a plain array or held in a shared
    value. *)
Theorem hasDynamicSnapPoint_iff_without_empty_strings (i : Inputs) :
  (forall s, In (Str s) (_snapPoints i) -> s <> EmptyString) ->
  (hasDynamicSnapPoint i = true <->
   enableDynamicSizing i = true \/ exists s, In (Str s) (_snapPoints i)).
Proof.
  intros Hne. rewrite (hasDynamicSnapPoint_nonempty_strings i Hne).
  rewrite orb_true_iff, existsb_exists. split.
  - intros [He|[sp [Hin Hstr]]]; [now left | right].
    destruct sp as [n|s]; [discriminate | now exists s].
  - intros [He|[s Hin]]; [now left | right].
    exists (Str s). now split.
Qed.

Lemma hasDynamicSnapPoint_iff_without_empty_strings_witness :
  let i := {| snapPoints := Shared [Px 100; Str "50%"];
              containerHeight := 600; contentHeight := 250;
              handleHeight := 24; footerHeight := 0;
              enableDynamicSizing := false;
              maxDynamicContentSize := None |} in
  (forall s, In (Str s) (_snapPoints i) -> s <> EmptyString) /\
  (hasDynamicSnapPoint i = true <->
   enableDynamicSizing i = true \/ exists s, In (Str s) (_snapPoints i)).
Proof.
  cbn zeta.
  assert (forall s,
    In (Str s) (_snapPoints
      {| snapPoints := Shared [Px 100; Str "50%"];
         containerHeight := 600; contentHeight := 250;
         handleHeight := 24; footerHeight := 0;
         enableDynamicSizing := false;
         maxDynamicContentSize := None |}) -> s <> EmptyString) as Hne.
  { intros s [H|[H|[]]]; [discriminate H|].
    injection H as <-. discriminate. }
  split; [exact Hne|].
  exact (hasDynamicSnapPoint_iff_without_empty_strings _ Hne).
Defined.

(** ** The index along the history of the hook *)

Section IndexHistory.

Context {imports : Imports}.

(** One recomputation: the full branch writes the position of its dynamic
    snap point, every other branch hands the index on. *)
Lemma recompute_index (u : Inputs) (k : Z) :
  st_index (recompute u k) =
  if dynamicReadyb u
  then indexOf (fst (normalizedSnapPoints u (-1))) (dynamicSnapPoint u)
  else k.
Proof.
  unfold recompute. cbn [st_index]. destruct (dynamicReadyb u) eqn:Hb.
  - apply dynamicReadyb_spec in Hb.
    now rewrite (run_dynamic u k Hb), (run_dynamic u (-1) Hb).
  - apply early_exit_keeps_index, not_ready_early_exit, Hb.
Qed.

(** The index after a history, read from the most recent inputs of the
    history that passed all four guards. *)
Lemma index_after_history (i : Inputs) (updates : list Inputs) :
  match find dynamicReadyb (rev (i :: updates)) with
  | Some j =>
      dynamicReady j /\
      st_index (recompute_all i updates) = snd (normalizedSnapPoints j (-1))
  | None => st_index (recompute_all i updates) = -1
  end.
Proof.
  induction updates as [|u updates IH] using rev_ind.
  - cbn [rev app find]. unfold recompute_all. cbn [fold_left].
    rewrite recompute_index. destruct (dynamicReadyb i) eqn:Hb; [|reflexivity].
    apply dynamicReadyb_spec in Hb. split; [exact Hb|].
    now rewrite (run_dynamic i (-1) Hb).
  - rewrite recompute_all_snoc, recompute_index.
    rewrite app_comm_cons, rev_app_distr. cbn [rev app find].
    destruct (dynamicReadyb u) eqn:Hb; [|exact IH].
    apply dynamicReadyb_spec in Hb. split; [exact Hb|].
    now rewrite (run_dynamic u (-1) Hb).
Qed.

(** C6 (as amended): every reachable state is the outcome of mounting and
    a sequence of updates, and for every such history of the state the
    index is [-1] when no recomputation of the history took the full
    dynamic-sizing branch, and otherwise is the index recorded by the most
    recent one that did: the first position [p], [0 <= p < length], of
    that recomputation's array whose element is that recomputation's
    dynamic snap point. A recomputation that takes an early exit keeps the
    index of the state it starts from. Hence, when the latest
    recomputation took the full branch, the index is such a position of
    the current array for the current dynamic snap point; after an early
    exit it is the earlier one and need not be a position of the current
    array. *)
Theorem index_invariant (s : HookState) :
  reachable s ->
  (exists i updates, s = recompute_all i updates) /\
  (forall i updates, s = recompute_all i updates ->
   match find dynamicReadyb (rev (i :: updates)) with
   | None => st_index s = -1
   | Some j =>
       dynamicReady j /\
       let recorded := normalizedSnapPoints j (-1) in
       st_index s = snd recorded /\
       0 <= st_index s < Z.of_nat (List.length (fst recorded)) /\
       at_ (fst recorded) (st_index s) = Some (dynamicSnapPoint j) /\
       (forall p, 0 <= p < st_index s ->
          at_ (fst recorded) p <> Some (dynamicSnapPoint j))
   end) /\
  (forall u, ~ dynamicReady u ->
     st_index (recompute u (st_index s)) = st_index s) /\
  (dynamicReady (st_inputs s) ->
   0 <= st_index s < Z.of_nat (List.length (st_normalized s)) /\
   at_ (st_normalized s) (st_index s) = Some (dynamicSnapPoint (st_inputs s)) /\
   (forall p, 0 <= p < st_index s ->
      at_ (st_normalized s) p <> Some (dynamicSnapPoint (st_inputs s)))).
Proof.
  intros Hreach. split; [now apply reachable_recompute_all|]. split; [|split].
  - intros i updates ->.
    pose proof (index_after_history i updates) as Hlast.
    destruct (find dynamicReadyb (rev (i :: updates))) as [j|]; [|exact Hlast].
    destruct Hlast as [Hr Hidx]. split; [exact Hr|]. cbn zeta.
    split; [exact Hidx|]. rewrite Hidx.
    exact (dynamic_index_valid j (-1) Hr).
  - intros u Hu. rewrite recompute_index.
    destruct (dynamicReadyb u) eqn:Hb; [|reflexivity].
    apply dynamicReadyb_spec in Hb. contradiction.
  - destruct Hreach as [i|s i Hs];
      cbn [recompute st_inputs st_normalized st_index];
      intros Hr; now apply dynamic_index_valid.
Qed.

(** Whatever the constants and the helper are, a reachable state with a
    stale index exists: mount with dynamic sizing and no provided snap
    points, then turn dynamic sizing off. *)
Lemma stale_index_any_imports :
  exists s, reachable s /\ st_normalized s = [] /\ st_index s = 0.
Proof.
  set (mounted := {| snapPoints := Absent;
                     containerHeight := INITIAL_CONTAINER_HEIGHT + 1;
                     contentHeight := INITIAL_CONTAINER_HEIGHT + 1;
                     handleHeight := INITIAL_HANDLE_HEIGHT + 1;
                     footerHeight := 0;
                     enableDynamicSizing := true;
                     maxDynamicContentSize := None |}).
  set (off := {| snapPoints := Absent;
                 containerHeight := INITIAL_CONTAINER_HEIGHT + 1;
                 contentHeight := INITIAL_CONTAINER_HEIGHT + 1;
                 handleHeight := INITIAL_HANDLE_HEIGHT + 1;
                 footerHeight := 0;
                 enableDynamicSizing := false;
                 maxDynamicContentSize := None |}).
  assert (dynamicReady mounted) as Hr
    by (repeat split; unfold containerReady, handleReady, contentReady;
        cbn; lia).
  assert (containerReady off) as Hc by (unfold containerReady; cbn; lia).
  exists (recompute off (st_index (recompute mounted (-1)))).
  split; [apply reachable_update, reachable_mount|].
  unfold recompute. cbn [st_index st_normalized].
  rewrite (run_no_dynamic off _ Hc eq_refl). cbn [fst snd].
  split; [reflexivity|].
  rewrite (run_dynamic mounted (-1) Hr). cbn [snd].
  unfold indexOf. cbn. now rewrite Z.eqb_refl.
Qed.

End IndexHistory.

Section IndexHistoryConcrete.

Import Sample.

(** C6, counterexample: the sheet mounts with dynamic sizing and no
    provided snap points (array [[276]], index 0) and is then rendered
    with dynamic sizing off: the array is empty and the index still 0,
    neither [-1] nor a position of the array. *)
Lemma stale_index_reachable :
  let mounted := {| snapPoints := Absent;
                    containerHeight := 600; contentHeight := 300;
                    handleHeight := 24; footerHeight := 0;
                    enableDynamicSizing := true;
                    maxDynamicContentSize := None |} in
  let switched_off := {| snapPoints := Absent;
                    containerHeight := 600; contentHeight := 300;
                    handleHeight := 24; footerHeight := 0;
                    enableDynamicSizing := false;
                    maxDynamicContentSize := None |} in
  let s := recompute (imports := imports) switched_off
             (st_index (recompute (imports := imports) mounted (-1))) in
  reachable (imports := imports) s /\
  st_normalized s = [] /\ st_index s = 0 /\
  ~ (st_index s = -1 \/
     (0 <= st_index s < Z.of_nat (List.length (st_normalized s)) /\
      at_ (st_normalized s) (st_index s)
      = Some (dynamicSnapPoint (st_inputs s)))).
Proof.
  cbn zeta.
  split; [apply reachable_update, reachable_mount|].
  split; [reflexivity|]. split; [reflexivity|].
  vm_compute. intros [H|[[_ H] _]]; discriminate H.
Qed.

Lemma index_invariant_witness :
  let mounted := {| snapPoints := Absent;
                    containerHeight := 600; contentHeight := 300;
                    handleHeight := 24; footerHeight := 0;
                    enableDynamicSizing := true;
                    maxDynamicContentSize := None |} in
  let switched_off := {| snapPoints := Absent;
                    containerHeight := 600; contentHeight := 300;
                    handleHeight := 24; footerHeight := 0;
                    enableDynamicSizing := false;
                    maxDynamicContentSize := None |} in
  let s := recompute_all (imports := imports) mounted [switched_off] in
  reachable (imports := imports) s /\
  st_normalized s = [] /\
  fst (run mounted (-1)) = [276] /\
  st_index s = snd (run mounted (-1)) /\
  at_ (fst (run mounted (-1))) (st_index s) = Some (dynamicSnapPoint mounted).
Proof.
  cbn zeta.
  set (mounted := {| snapPoints := Absent;
                     containerHeight := 600; contentHeight := 300;
                     handleHeight := 24; footerHeight := 0;
                     enableDynamicSizing := true;
                     maxDynamicContentSize := None |}).
  set (switched_off := {| snapPoints := Absent;
                     containerHeight := 600; contentHeight := 300;
                     handleHeight := 24; footerHeight := 0;
                     enableDynamicSizing := false;
                     maxDynamicContentSize := None |}).
  assert (reachable (imports := imports)
            (recompute_all (imports := imports) mounted [switched_off]))
    as Hreach by (apply reachable_update, reachable_mount).
  split; [exact Hreach|]. split; [reflexivity|]. split; [reflexivity|].
  destruct (index_invariant (imports := imports) _ Hreach) as (_ & Hhist & _).
  specialize (Hhist mounted [switched_off] eq_refl).
  change (find (dynamicReadyb (imports := imports))
            (rev (mounted :: [switched_off]))) with (Some mounted) in Hhist.
  destruct Hhist as (_ & Hidx & _ & Hat & _).
  split; [exact Hidx | exact Hat].
Defined.

End IndexHistoryConcrete.
